(** * go-sql-generic-sample: the user repository adapter and its search handler

    A shallow embedding of [internal/user/repository/adapter/adapter.go]
    (the [UserAdapter] methods) and of the paging step of
    [internal/user/handler/handler.go], together with the properties the
    specification states about them.

    The adapter talks to a database through [database/sql] and builds its
    statements with the imported package [s] (core-go/sql).  Both are
    dependencies of the program, and both are interfaces here:
    - [Engine] is the database behind the [*sql.DB] handle, a state machine
      that answers each submitted statement;
    - [SqlLib] is the package [s], one field per imported function.
    Every adapter method is a computation in the monad [M], which threads the
    engine state and records each statement handed to the engine.

    The [int64] values of the program (limits, offsets, totals, row counts)
    are integers of [Z]: the adapter compares them with zero and passes them
    on, and computes with none of them. *)

From Stdlib Require Import ZArith Lia.
From stdpp Require Import base option list strings pretty gmap.

Local Open Scope string_scope.
Local Open Scope list_scope.
Local Open Scope Z_scope.

(** ** Values, errors and driver results *)

(** A Go [interface{}] used as a statement argument or a JSON value. *)
Inductive Value : Type :=
| VNull
| VBool (b : bool)
| VInt (z : Z)
| VString (s : string).

(** A Go [error] value.  The adapter creates no error of its own: every
    error it returns was produced by the driver.  [DriverError] is such a
    value, carrying the SQLSTATE the engine reported.  [ConstraintError] and
    [ValidationError] are the kinds the specification's taxonomy names; no
    file of the program declares or constructs them. *)
Inductive error : Type :=
| DriverError (sqlstate : string)
| ConstraintError (detail : string)
| ValidationError (detail : string).

Definition isConstraintError (e : error) : bool :=
  match e with ConstraintError _ => true | _ => false end.

Definition isValidationError (e : error) : bool :=
  match e with ValidationError _ => true | _ => false end.

(** [sql.Result]: only [RowsAffected() (int64, error)] is used. *)
Record Result : Type := { RowsAffected : Z * option error }.

(** [*sql.Row] as returned by [QueryRowContext]: [Err()] and the effect of
    [Scan(&total)] on a [total] that is zero before the call (the value left
    in [total], and the error returned). *)
Record Row : Type := { Err : option error; Scan : Z * option error }.

(** ** Records of the program *)

(** Modelled from the spec: [model.User], of the program's package [model];
    the fields are those of the README's JSON samples. *)
Record User : Type := {
  Id : string;
  Username : string;
  Email : string;
  Phone : string;
  DateOfBirth : option string
}.

(** Modelled from the spec: [model.UserFilter] embeds [*search.Filter]
    (paging fields [page], [limit] and the sort specification) and adds the
    domain criteria of the README's search sample. *)
Record UserFilter : Type := {
  Page : Z;
  Limit : Z;
  Sort : string;
  FilterEmail : string;
  FilterDateOfBirth : option string * option string
}.

(** The handle a statement is executed on: the pooled connection, or the
    transaction found in the call's context. *)
Inductive Executor : Type :=
| OnDB
| OnTx (tx : nat).

(** [context.Context], reduced to what [s.GetTx] can find in it. *)
Record Context : Type := { ctxTx : option nat }.

(** ** The database engine and the calls made to it *)

(** One statement submitted to the engine, tagged with the [database/sql]
    entry point it went through. *)
Inductive Call : Type :=
| CExec (tx : Executor) (query : string) (args : list Value)
| CQueryRow (query : string) (args : list Value)
| CQuery (query : string) (args : list Value).

Definition isExec (c : Call) : bool :=
  match c with CExec _ _ _ => true | _ => false end.
Definition isQueryRow (c : Call) : bool :=
  match c with CQueryRow _ _ => true | _ => false end.
Definition isQuery (c : Call) : bool :=
  match c with CQuery _ _ => true | _ => false end.

(** The statement text of a call, and the arguments bound to it. *)
Definition callQuery (c : Call) : string :=
  match c with
  | CExec _ query _ => query
  | CQueryRow query _ => query
  | CQuery query _ => query
  end.

Definition callArgs (c : Call) : list Value :=
  match c with
  | CExec _ _ args => args
  | CQueryRow _ args => args
  | CQuery _ args => args
  end.

(** The engine behind [*sql.DB], over its own state [St].
    - [execContext]: [tx.ExecContext(ctx, query, args...)], a result or an
      error;
    - [queryRowContext]: [db.QueryRowContext(ctx, query, args...)];
    - [queryUsers]: [s.Query(ctx, db, fieldsIndex, &users, query, args...)],
      the rows appended to [users] and the error returned. *)
Record Engine (St : Type) : Type := {
  execContext : Executor -> string -> list Value -> St -> (Result + error) * St;
  queryRowContext : string -> list Value -> St -> Row * St;
  queryUsers : string -> list Value -> St -> (list User * option error) * St
}.
Arguments execContext {St} _ _ _ _ _.
Arguments queryRowContext {St} _ _ _ _.
Arguments queryUsers {St} _ _ _ _.

(** ** The monad of adapter methods *)

(** A computation reads the engine state and yields its result, the calls
    it submitted (oldest first) and the new engine state. *)
Definition M (St A : Type) : Type := St -> A * list Call * St.

Definition ret {St A : Type} (a : A) : M St A := fun st => (a, [], st).

Definition bind {St A B : Type} (m : M St A) (k : A -> M St B) : M St B :=
  fun st =>
    let '(a, l1, st1) := m st in
    let '(b, l2, st2) := k a st1 in
    (b, l1 ++ l2, st2).

Declare Scope db_scope.
Delimit Scope db_scope with db.
Notation "x <- m ;; k" := (bind m (fun x => k))
  (at level 100, m at next level, right associativity) : db_scope.
Local Open Scope db_scope.

Definition value {St A : Type} (m : M St A) (st : St) : A := (m st).1.1.
Definition issued {St A : Type} (m : M St A) (st : St) : list Call := (m st).1.2.
Definition after {St A : Type} (m : M St A) (st : St) : St := (m st).2.

Section Primitives.
Context {St : Type} (eng : Engine St).

Definition ExecContext (tx : Executor) (query : string) (args : list Value)
  : M St (Result + error) :=
  fun st => let '(r, st') := execContext eng tx query args st in
            (r, [CExec tx query args], st').

Definition QueryRowContext (query : string) (args : list Value) : M St Row :=
  fun st => let '(r, st') := queryRowContext eng query args st in
            (r, [CQueryRow query args], st').

Definition Query (query : string) (args : list Value)
  : M St (list User * option error) :=
  fun st => let '(r, st') := queryUsers eng query args st in
            (r, [CQuery query args], st').
End Primitives.

(** ** The imported package [s] and the adapter's parameters *)

(** [s.Parameters], embedded in [UserAdapter]. *)
Record Parameters : Type := {
  Keys : list string;
  JsonColumnMap : gmap string string;
  Fields : string;
  BuildParam : Z -> string;
  Map : gmap string Z
}.

(** The functions of package [s] the adapter calls. *)
Record SqlLib : Type := {
  BuildToInsert : string -> User -> (Z -> string) -> string * list Value;
  BuildToUpdate : string -> User -> (Z -> string) -> string * list Value;
  JSONToColumns : gmap string Value -> gmap string string -> gmap string Value;
  BuildToPatch : string -> gmap string Value -> list string -> (Z -> string)
                 -> string * list Value;
  BuildPagingQuery : string -> Z -> Z -> string;
  BuildCountQuery : string -> string;
  GetTx : Context -> Executor
}.

(** [UserAdapter]; its [DB] field is the engine the computation runs on. *)
Record UserAdapter : Type := {
  BuildQuery : UserFilter -> string * list Value;
  params : Parameters
}.

(** ** The adapter methods *)

Section Adapter.
Context {St : Type} (eng : Engine St) (lib : SqlLib).

Definition All (r : UserAdapter) (ctx : Context)
  : M St (list User * option error) :=
  let query := "select * from users" in
  Query eng query [].

Definition Load (r : UserAdapter) (ctx : Context) (id : string)
  : M St (option User * option error) :=
  let query := "select " +:+ Fields (params r) +:+ " from users where id = "
               +:+ BuildParam (params r) 1 +:+ " limit 1" in
  res <- Query eng query [VString id] ;;
  let '(users, err) := res in
  match err with
  | Some e => ret (None, Some e)
  | None =>
      match users with
      | u :: _ => ret (Some u, None)
      | [] => ret (None, None)
      end
  end.

Definition Create (r : UserAdapter) (ctx : Context) (user : User)
  : M St (Z * option error) :=
  let '(query, args) := BuildToInsert lib "users" user (BuildParam (params r)) in
  let tx := GetTx lib ctx in
  res <- ExecContext eng tx query args ;;
  match res with
  | inr err => ret (-1, Some err)
  | inl res => ret (RowsAffected res)
  end.

Definition Update (r : UserAdapter) (ctx : Context) (user : User)
  : M St (Z * option error) :=
  let '(query, args) := BuildToUpdate lib "users" user (BuildParam (params r)) in
  let tx := GetTx lib ctx in
  res <- ExecContext eng tx query args ;;
  match res with
  | inr err => ret (-1, Some err)
  | inl res => ret (RowsAffected res)
  end.

Definition Patch (r : UserAdapter) (ctx : Context) (user : gmap string Value)
  : M St (Z * option error) :=
  let colMap := JSONToColumns lib user (JsonColumnMap (params r)) in
  let '(query, args) :=
    BuildToPatch lib "users" colMap (Keys (params r)) (BuildParam (params r)) in
  let tx := GetTx lib ctx in
  res <- ExecContext eng tx query args ;;
  match res with
  | inr err => ret (-1, Some err)
  | inl res => ret (RowsAffected res)
  end.

Definition Delete (r : UserAdapter) (ctx : Context) (id : string)
  : M St (Z * option error) :=
  let query := "delete from users where id = " +:+ BuildParam (params r) 1 in
  let tx := GetTx lib ctx in
  res <- ExecContext eng tx query [VString id] ;;
  match res with
  | inr err => ret (-1, Some err)
  | inl res => ret (RowsAffected res)
  end.

Definition Search (r : UserAdapter) (ctx : Context) (filter : UserFilter)
    (limit offset : Z) : M St (list User * Z * option error) :=
  let users : list User := [] in
  if limit <=? 0 then ret (users, 0, None)
  else
    let '(query, params) := BuildQuery r filter in
    let pagingQuery := BuildPagingQuery lib query limit offset in
    let countQuery := BuildCountQuery lib query in
    row <- QueryRowContext eng countQuery params ;;
    match Err row with
    | Some e => ret (users, 0, Some e)
    | None =>
        let '(total, err) := Scan row in
        if bool_decide (err ≠ None) || (total =? 0) then ret (users, total, err)
        else
          res <- Query eng pagingQuery params ;;
          let '(found, err) := res in
          ret (users ++ found, total, err)
    end.
End Adapter.

(** The four writing methods behind one entry point, so that a property of
    "every Create, Update, Patch or Delete call" is a property of
    [runWrite]; [statementOf] is the statement text and argument list the
    method passes to [ExecContext]. *)
Inductive WriteOp : Type :=
| OpCreate (user : User)
| OpUpdate (user : User)
| OpPatch (user : gmap string Value)
| OpDelete (id : string).

Definition isCreate (op : WriteOp) : bool :=
  match op with OpCreate _ => true | _ => false end.

Definition statementOf (lib : SqlLib) (r : UserAdapter) (op : WriteOp)
  : string * list Value :=
  match op with
  | OpCreate user => BuildToInsert lib "users" user (BuildParam (params r))
  | OpUpdate user => BuildToUpdate lib "users" user (BuildParam (params r))
  | OpPatch user =>
      BuildToPatch lib "users" (JSONToColumns lib user (JsonColumnMap (params r)))
        (Keys (params r)) (BuildParam (params r))
  | OpDelete id =>
      ("delete from users where id = " +:+ BuildParam (params r) 1, [VString id])
  end.

Definition runWrite {St : Type} (eng : Engine St) (lib : SqlLib)
    (r : UserAdapter) (ctx : Context) (op : WriteOp) : M St (Z * option error) :=
  match op with
  | OpCreate user => Create eng lib r ctx user
  | OpUpdate user => Update eng lib r ctx user
  | OpPatch user => Patch eng lib r ctx user
  | OpDelete id => Delete eng lib r ctx id
  end.

(** ** The search handler *)

Module search.

(** Modelled from the spec: [search.GetOffset], of the imported package
    core-go/search; the specification gives
    [offset = limit * (max(page,1) - 1)], taken here over the integers. *)
Definition GetOffset (limit page : Z) : Z := limit * (Z.max page 1 - 1).

End search.

Module handler.

(** An incoming request: its context and its undecoded content. *)
Record Request : Type := { reqContext : Context; reqContent : string }.

(** What the handler writes: [http.Error] with a status, or [core.JSON]
    with a status and a [search.Result]. *)
Inductive Response : Type :=
| HttpError (msg : error) (status : Z)
| JSON (status : Z) (List : list User) (Total : Z).

Definition StatusOK : Z := 200.
Definition StatusBadRequest : Z := 400.
Definition StatusInternalServerError : Z := 500.

Section Handler.
Context {St : Type}.
(** [search.Decode] with the handler's indexes, and the [Search] method
    of the [service.UserService] the handler holds. *)
Context (Decode : Request -> UserFilter + error).
Context (service_Search :
           Context -> UserFilter -> Z -> Z -> M St (list User * Z * option error)).

Definition Search (r : Request) : M St Response :=
  match Decode r with
  | inr err => ret (HttpError err StatusBadRequest)
  | inl filter =>
      let offset := search.GetOffset (Limit filter) (Page filter) in
      res <- service_Search (reqContext r) filter (Limit filter) offset ;;
      let '(users, total, err) := res in
      match err with
      | Some e => ret (HttpError e StatusInternalServerError)
      | None => ret (JSON StatusOK users total)
      end
  end.
End Handler.

(** What [All] writes: [http.Error] with a message and a status, or
    [core.JSON] with a status and the list of users. *)
Inductive ListResponse : Type :=
| ListError (msg : string) (status : Z)
| ListJSON (status : Z) (users : list User).

Section HandlerAll.
Context {St : Type}.
(** The [Error()] text of an error value, and the [All] method of the
    [service.UserService] the handler holds. *)
Context (errorText : error -> string).
Context (service_All : Context -> M St (list User * option error)).

(** [All] yields what it writes and the lines it hands to [h.Error]. *)
Definition All (r : Request) : M St (ListResponse * list string) :=
  res <- service_All (reqContext r) ;;
  let '(users, err) := res in
  match err with
  | Some e =>
      ret (ListError (errorText e) StatusInternalServerError,
           ["Error: " +:+ errorText e])
  | None => ret (ListJSON StatusOK users, [])
  end.
End HandlerAll.

End handler.

(** ** Statements and builders, from the specification *)

Module builder.

(** Modelled from the spec: a field descriptor of [RecordMetadata]
    (section 3); the metadata of a record type is the list of its
    descriptors in declaration order. *)
Record FieldDescriptor : Type := {
  fieldName : string;
  columnName : string;
  jsonKey : string;
  isPrimaryKey : bool;
  isNullable : bool
}.

(** Modelled from the spec: the primary-key columns of a record type, in
    declaration order. *)
Definition keyColumns (meta : list FieldDescriptor) : list string :=
  columnName <$> filter (fun f => isPrimaryKey f = true) meta.

(** Modelled from the spec: the statements of the Statement Builder
    (section 4.3) before they are turned into text.  An assignment or a
    condition is a column with the placeholder bound to it. *)
Inductive Stmt : Type :=
| SInsert (table : string) (columns : list (string * string))
| SUpdate (table : string) (sets wheres : list (string * string))
| SDelete (table : string) (wheres : list (string * string)).

(** The columns of a statement's WHERE clause, in the order they are
    AND-ed. *)
Definition whereColumns (s : Stmt) : list string :=
  match s with
  | SInsert _ _ => []
  | SUpdate _ _ wheres => wheres.*1
  | SDelete _ wheres => wheres.*1
  end.

Definition equals (a : string * string) : string := a.1 +:+ " = " +:+ a.2.

(** Modelled from the spec: the text of a statement ([sqlText] of the
    specification's [Statement]); conditions are joined with [and]. *)
Definition render (s : Stmt) : string :=
  match s with
  | SInsert table columns =>
      "insert into " +:+ table +:+ " (" +:+ String.concat ", " columns.*1
      +:+ ") values (" +:+ String.concat ", " columns.*2 +:+ ")"
  | SUpdate table sets wheres =>
      "update " +:+ table +:+ " set " +:+ String.concat ", " (equals <$> sets)
      +:+ " where " +:+ String.concat " and " (equals <$> wheres)
  | SDelete table wheres =>
      "delete from " +:+ table
      +:+ " where " +:+ String.concat " and " (equals <$> wheres)
  end.

(** Binds the columns to consecutive placeholders, the first at index [i]. *)
Fixpoint placeholders (buildParam : Z -> string) (i : Z) (columns : list string)
  : list (string * string) :=
  match columns with
  | [] => []
  | c :: cs => (c, buildParam i) :: placeholders buildParam (i + 1) cs
  end.

Section Builders.
Context (table : string) (buildParam : Z -> string).

(** Modelled from the spec: [BuildInsert] emits every column, arguments
    in column order. *)
Definition BuildInsert (record : list (FieldDescriptor * Value))
  : Stmt * list Value :=
  (SInsert table (placeholders buildParam 1 (columnName <$> record.*1)),
   record.*2).

(** Modelled from the spec: [BuildUpdate] sets all non-key columns and
    selects on the key columns in declared order. *)
Definition BuildUpdate (record : list (FieldDescriptor * Value))
  : Stmt * list Value :=
  let sets := filter (fun fv => isPrimaryKey fv.1 = false) record in
  let keys := filter (fun fv => isPrimaryKey fv.1 = true) record in
  (SUpdate table
     (placeholders buildParam 1 (columnName <$> sets.*1))
     (placeholders buildParam (1 + Z.of_nat (length sets))
        (columnName <$> keys.*1)),
   sets.*2 ++ keys.*2).

(** Modelled from the spec: [BuildPatch] sets only the columns present
    in the document, the key columns excepted, and selects on the key
    columns. *)
Definition BuildPatch (doc : gmap string Value) (keys : list string)
  : Stmt * list Value :=
  let sets := filter (fun cv => cv.1 ∉ keys) (map_to_list doc) in
  (SUpdate table
     (placeholders buildParam 1 sets.*1)
     (placeholders buildParam (1 + Z.of_nat (length sets)) keys),
   sets.*2 ++ ((fun k => default VNull (doc !! k)) <$> keys)).

(** Modelled from the spec: [BuildDelete] selects on the key columns. *)
Definition BuildDelete (keys : list (string * Value)) : Stmt * list Value :=
  (SDelete table (placeholders buildParam 1 keys.*1), keys.*2).
End Builders.

(** Modelled from the spec: the metadata of [model.User], with the columns
    of the README's samples and the single key [id]. *)
Definition userMetadata : list FieldDescriptor :=
  [ {| fieldName := "Id"; columnName := "id"; jsonKey := "id";
       isPrimaryKey := true; isNullable := false |};
    {| fieldName := "Username"; columnName := "username"; jsonKey := "username";
       isPrimaryKey := false; isNullable := false |};
    {| fieldName := "Email"; columnName := "email"; jsonKey := "email";
       isPrimaryKey := false; isNullable := false |};
    {| fieldName := "Phone"; columnName := "phone"; jsonKey := "phone";
       isPrimaryKey := false; isNullable := false |};
    {| fieldName := "DateOfBirth"; columnName := "date_of_birth";
       jsonKey := "dateOfBirth"; isPrimaryKey := false; isNullable := true |} ].

(** Modelled from the spec: a [User] seen through its metadata, one value
    per descriptor. *)
Definition describe (u : User) : list (FieldDescriptor * Value) :=
  zip userMetadata
    [ VString (Id u); VString (Username u); VString (Email u);
      VString (Phone u); from_option VString VNull (DateOfBirth u) ].

(** Modelled from the spec: the Parameter Binder's numbered form. *)
Definition numbered (i : Z) : string := "$" +:+ pretty i.

(** Modelled from the spec: the functions of package [s] as the call sites
    of the adapter use them.  [JSONToColumns] returns a map and nothing
    else, so this one renames the keys that have a column and leaves the
    others out. *)
Definition lib : SqlLib := {|
  BuildToInsert table user bp :=
    let '(s, args) := BuildInsert table bp (describe user) in (render s, args);
  BuildToUpdate table user bp :=
    let '(s, args) := BuildUpdate table bp (describe user) in (render s, args);
  JSONToColumns model m :=
    list_to_map (omap (fun kv => (fun c => (c, kv.2)) <$> m !! kv.1)
                   (map_to_list model));
  BuildToPatch table doc keys bp :=
    let '(s, args) := BuildPatch table bp doc keys in (render s, args);
  BuildPagingQuery query limit offset :=
    query +:+ " limit " +:+ pretty limit +:+ " offset " +:+ pretty offset;
  BuildCountQuery query := "select count(*) from (" +:+ query +:+ ") as main";
  GetTx ctx := match ctxTx ctx with Some tx => OnTx tx | None => OnDB end
|}.

(** The statement of the adapter's [Delete], whose text is fixed in the
    method itself. *)
Definition deleteStatement (r : UserAdapter) : Stmt :=
  SDelete "users" [("id", BuildParam (params r) 1)].

End builder.

(** ** Sample engines and adapters *)

Module sample.

(** An engine that gives every statement the same answer and counts the
    statements it has received. *)
Definition engine (exec : Result + error) (row : Row)
    (rows : list User * option error) : Engine nat := {|
  execContext _ _ _ n := (exec, S n);
  queryRowContext _ _ n := (row, S n);
  queryUsers _ _ n := (rows, S n)
|}.

Definition affected (n : Z) : Result + error :=
  inl {| RowsAffected := (n, None) |}.

(** SQLSTATE 23505, unique_violation: the insert of a duplicate key. *)
Definition duplicateKey : error := DriverError "23505".

(** SQLSTATE 42601, syntax_error. *)
Definition syntaxError : error := DriverError "42601".

Definition counted (total : Z) : Row := {| Err := None; Scan := (total, None) |}.

(** Every write is accepted and affects [n] rows; no row is ever found. *)
Definition accepting (n : Z) : Engine nat :=
  engine (affected n) (counted 0) ([], None).

(** Every write is rejected with [err]. *)
Definition rejecting (err : error) : Engine nat :=
  engine (inr err) (counted 0) ([], None).

(** The count query reports [total] rows and every query finds [rows]. *)
Definition holding (total : Z) (rows : list User) : Engine nat :=
  engine (affected 1) (counted total) (rows, None).

Definition ironman : User := {|
  Id := "ironman"; Username := "tony.stark"; Email := "tony.stark@gmail.com";
  Phone := "0987654321"; DateOfBirth := Some "1963-03-24T17:00:00Z"
|}.

Definition buildQuery (filter : UserFilter) : string * list Value :=
  if decide (FilterEmail filter = "") then ("select * from users", [])
  else ("select * from users where email like " +:+ builder.numbered 1,
        [VString (FilterEmail filter +:+ "%")]).

(** The adapter [NewUserAdapter] returns for the [users] table. *)
Definition users : UserAdapter := {|
  BuildQuery := buildQuery;
  params := {|
    Keys := builder.keyColumns builder.userMetadata;
    JsonColumnMap :=
      list_to_map ((fun f => (builder.jsonKey f, builder.columnName f))
                     <$> builder.userMetadata);
    Fields := String.concat "," (builder.columnName <$> builder.userMetadata);
    BuildParam := builder.numbered;
    Map := list_to_map (zip (builder.columnName <$> builder.userMetadata)
                          (Z.of_nat <$> seq 0 5))
  |}
|}.

Definition background : Context := {| ctxTx := None |}.

Definition firstPage : UserFilter := {|
  Page := 1; Limit := 20; Sort := "phone,-id"; FilterEmail := "tony";
  FilterDateOfBirth := (Some "1953-11-16T00:00:00+07:00",
                        Some "1976-11-16T00:00:00+07:00")
|}.

Definition thirdPage : UserFilter := {|
  Page := 3; Limit := 20; Sort := ""; FilterEmail := "";
  FilterDateOfBirth := (None, None)
|}.

Definition request : handler.Request :=
  {| handler.reqContext := background; handler.reqContent := "page=3&limit=20" |}.

(** A decoder that reads [thirdPage] from every request. *)
Definition decode (r : handler.Request) : UserFilter + error := inl thirdPage.

(** A service that hands the search to the [users] adapter. *)
(** The count query fails before any row is read. *)
Definition failingCount (err : error) : Engine nat :=
  engine (affected 1) {| Err := Some err; Scan := (0, None) |} ([ironman], None).

(** The count query yields a row that cannot be scanned. *)
Definition unreadableCount (err : error) : Engine nat :=
  engine (affected 1) {| Err := None; Scan := (0, Some err) |} ([ironman], None).

(** The count query reports [total] rows and the paged query fails. *)
Definition failingPage (total : Z) (err : error) : Engine nat :=
  engine (affected 1) (counted total) ([], Some err).

(** Writes are accepted, and the driver cannot tell the affected rows. *)
Definition countless (n : Z) (err : error) : Engine nat :=
  engine (inl {| RowsAffected := (n, Some err) |}) (counted 0) ([], None).

(** SQLSTATE 08006, connection_failure. *)
Definition connectionLost : error := DriverError "08006".

Definition wolverine : User := {|
  Id := "wolverine"; Username := "james.howlett";
  Email := "james.howlett@gmail.com"; Phone := "0987654321";
  DateOfBirth := Some "1974-11-16T16:59:59.999Z"
|}.

(** The text of a driver error is its SQLSTATE. *)
Definition errorText (e : error) : string :=
  match e with
  | DriverError s => s
  | ConstraintError s => s
  | ValidationError s => s
  end.

(** A decoder that rejects every request. *)
Definition undecodable (r : handler.Request) : UserFilter + error :=
  inr (ValidationError "page").

Definition noPage : UserFilter := {|
  Page := 1; Limit := 0; Sort := ""; FilterEmail := "";
  FilterDateOfBirth := (None, None)
|}.

Definition service {St : Type} (eng : Engine St)
  : Context -> UserFilter -> Z -> Z -> M St (list User * Z * option error) :=
  Search eng builder.lib users.

End sample.

(** ** Running the methods *)

(** What a writing method returns for the engine's answer to its statement. *)
Definition reply (res : Result + error) : Z * option error :=
  match res with
  | inr err => (-1, Some err)
  | inl res => RowsAffected res
  end.

(** The engine's answer to the statement of a writing method. *)
Definition answer {St : Type} (eng : Engine St) (lib : SqlLib) (r : UserAdapter)
    (ctx : Context) (op : WriteOp) (st : St) : (Result + error) * St :=
  execContext eng (GetTx lib ctx) (statementOf lib r op).1 (statementOf lib r op).2 st.

(** The text of the point lookup [Load] submits. *)
Definition loadQuery (r : UserAdapter) : string :=
  "select " +:+ Fields (params r) +:+ " from users where id = "
  +:+ BuildParam (params r) 1 +:+ " limit 1".

(** The WHERE clause the specification asks of a mutating statement, as
    text: one condition [column = placeholder] per key column, in the order
    of [keys], the first placeholder at index [i], the conditions joined by
    [and]. *)
Definition keyConditions (buildParam : Z -> string) (i : Z) (keys : list string)
  : string :=
  String.concat " and "
    ((fun cp => cp.1 +:+ " = " +:+ cp.2) <$> builder.placeholders buildParam i keys).

(** The SET list of an update, as text: one assignment per column, joined
    by commas. *)
Definition assignments (buildParam : Z -> string) (i : Z) (columns : list string)
  : string :=
  String.concat ", "
    ((fun cp => cp.1 +:+ " = " +:+ cp.2) <$> builder.placeholders buildParam i columns).

(** The columns of a record's metadata that are not part of the key. *)
Definition plainColumns (meta : list builder.FieldDescriptor) : list string :=
  builder.columnName <$> filter (fun f => builder.isPrimaryKey f = false) meta.

Ltac run_step :=
  unfold bind, ret, ExecContext, QueryRowContext, Query; cbn.

Lemma bind_run {St A B : Type} (m : M St A) (k : A -> M St B) (st : St) :
  bind m k st =
  (value (k (value m st)) (after m st),
   issued m st ++ issued (k (value m st)) (after m st),
   after (k (value m st)) (after m st)).
Proof.
  unfold bind, value, issued, after.
  destruct (m st) as [[a l1] st1]; cbn.
  destruct (k a st1) as [[b l2] st2]; reflexivity.
Qed.

(** Every writing method submits the one statement it built and returns
    [reply] of the engine's answer. *)
Lemma runWrite_run {St : Type} (eng : Engine St) lib r ctx op (st : St) :
  runWrite eng lib r ctx op st =
  (reply (answer eng lib r ctx op st).1,
   [CExec (GetTx lib ctx) (statementOf lib r op).1 (statementOf lib r op).2],
   (answer eng lib r ctx op st).2).
Proof.
  unfold answer.
  destruct op as [user | user | user | id]; cbn [runWrite statementOf].
  - unfold Create. destruct (BuildToInsert _ _ _ _) as [query args]. run_step.
    destruct (execContext _ _ _ _ _) as [[res | err] st']; reflexivity.
  - unfold Update. destruct (BuildToUpdate _ _ _ _) as [query args]. run_step.
    destruct (execContext _ _ _ _ _) as [[res | err] st']; reflexivity.
  - unfold Patch. destruct (BuildToPatch _ _ _ _ _) as [query args]. run_step.
    destruct (execContext _ _ _ _ _) as [[res | err] st']; reflexivity.
  - unfold Delete. run_step.
    destruct (execContext _ _ _ _ _) as [[res | err] st']; reflexivity.
Qed.

Lemma runWrite_value {St : Type} (eng : Engine St) lib r ctx op (st : St) :
  value (runWrite eng lib r ctx op) st = reply (answer eng lib r ctx op st).1.
Proof. unfold value. now rewrite runWrite_run. Qed.

(** When the engine accepts the statement, the method returns the pair
    [RowsAffected] gives, count and error alike. *)
Lemma runWrite_accepted {St : Type} (eng : Engine St) lib r ctx op (st : St) res :
  (answer eng lib r ctx op st).1 = inl res ->
  value (runWrite eng lib r ctx op) st = RowsAffected res.
Proof. intros Hanswer. now rewrite runWrite_value, Hanswer. Qed.

Lemma runWrite_issued {St : Type} (eng : Engine St) lib r ctx op (st : St) :
  issued (runWrite eng lib r ctx op) st =
  [CExec (GetTx lib ctx) (statementOf lib r op).1 (statementOf lib r op).2].
Proof. unfold issued. now rewrite runWrite_run. Qed.

(** ** Paging short-circuit and the count query *)

(** C1: for every filter and offset, [Search] with [limit <= 0] submits no
    statement to the engine (no count query, no paged query), leaves the
    engine as it was, and returns the empty sequence, total 0 and no error. *)
Theorem Search_nonpositive_limit {St : Type} (eng : Engine St) lib r ctx filter
    limit offset (st : St) :
  limit <= 0 ->
  Search eng lib r ctx filter limit offset st = (([], 0, None), [], st).
Proof.
  intros Hlimit. unfold Search.
  destruct (Z.leb_spec limit 0) as [_ | Hpos]; [reflexivity | lia].
Qed.

Lemma Search_nonpositive_limit_witness :
  -5 <= 0 /\
  Search (sample.holding 3 [sample.ironman]) builder.lib sample.users
    sample.background sample.firstPage (-5) 0 0%nat
  = (([], 0, None), [], 0%nat).
Proof. split; [lia | apply Search_nonpositive_limit; lia]. Defined.

(** With a positive limit the method starts with the count query; what
    follows depends only on the row the engine returns for it. *)
Lemma Search_positive_run {St : Type} (eng : Engine St) lib r ctx filter
    limit offset (st : St) :
  0 < limit ->
  let base := BuildQuery r filter in
  let countQuery := BuildCountQuery lib base.1 in
  let pagingQuery := BuildPagingQuery lib base.1 limit offset in
  let counted := queryRowContext eng countQuery base.2 st in
  let paged := queryUsers eng pagingQuery base.2 counted.2 in
  Search eng lib r ctx filter limit offset st =
  match Err counted.1 with
  | Some e => (([], 0, Some e), [CQueryRow countQuery base.2], counted.2)
  | None =>
      match Scan counted.1 with
      | (total, Some e) =>
          (([], total, Some e), [CQueryRow countQuery base.2], counted.2)
      | (total, None) =>
          if total =? 0
          then (([], total, None), [CQueryRow countQuery base.2], counted.2)
          else ((paged.1.1, total, paged.1.2),
                [CQueryRow countQuery base.2; CQuery pagingQuery base.2],
                paged.2)
      end
  end.
Proof.
  intros Hlimit. unfold Search.
  destruct (Z.leb_spec limit 0) as [Hle | _]; [lia |].
  destruct (BuildQuery r filter) as [query args]. run_step.
  destruct (queryRowContext _ _ _ _) as [row st1]. cbn.
  destruct (Err row) as [e |]; [reflexivity |].
  destruct (Scan row) as [total [e |]]; cbn; [reflexivity |].
  destruct (total =? 0); [reflexivity |].
  destruct (queryUsers _ _ _ _) as [[found err] st2]. reflexivity.
Qed.

(** C3: for every [Search] call with [limit > 0] the count query is
    submitted exactly once (it is the first call, and the only
    [QueryRowContext] call); when it reports a total of 0 the paged query is
    not submitted and [Search] returns the empty sequence with total 0. *)
Theorem Search_counts_once {St : Type} (eng : Engine St) lib r ctx filter
    limit offset (st : St) :
  0 < limit ->
  let base := BuildQuery r filter in
  let count := CQueryRow (BuildCountQuery lib base.1) base.2 in
  let paged := CQuery (BuildPagingQuery lib base.1 limit offset) base.2 in
  let row := (queryRowContext eng (BuildCountQuery lib base.1) base.2 st).1 in
  let calls := issued (Search eng lib r ctx filter limit offset) st in
  (calls = [count] \/ calls = [count; paged]) /\
  length (List.filter isQueryRow calls) = 1%nat /\
  (Err row = None -> Scan row = (0, None) ->
   calls = [count] /\
   value (Search eng lib r ctx filter limit offset) st = ([], 0, None)).
Proof.
  intros Hlimit base count paged row calls.
  subst calls. unfold issued, value.
  rewrite (Search_positive_run eng lib r ctx filter limit offset st Hlimit).
  fold base. fold row. cbn zeta.
  destruct (Err row) as [e |] eqn:Herr.
  { cbn. split; [now left |]. split; [reflexivity |]. discriminate. }
  destruct (Scan row) as [total [e |]] eqn:Hscan.
  { cbn. split; [now left |]. split; [reflexivity |]. intros _ [=]. }
  destruct (total =? 0) eqn:Htotal; cbn.
  - split; [now left |]. split; [reflexivity |].
    intros _ [= ->]. split; reflexivity.
  - split; [now right |]. split; [reflexivity |].
    intros _ [= ->]. discriminate.
Qed.

Lemma Search_counts_once_witness :
  0 < 20 /\
  issued (Search (sample.holding 0 [sample.ironman]) builder.lib sample.users
            sample.background sample.firstPage 20 0) 0%nat
  = [CQueryRow
       "select count(*) from (select * from users where email like $1) as main"
       [VString "tony%"]] /\
  value (Search (sample.holding 0 [sample.ironman]) builder.lib sample.users
           sample.background sample.firstPage 20 0) 0%nat
  = ([], 0, None).
Proof.
  split; [lia |].
  apply (Search_counts_once (sample.holding 0 [sample.ironman]) builder.lib
           sample.users sample.background sample.firstPage 20 0 0%nat);
    [lia | reflexivity | reflexivity].
Defined.

(** ** Patch payloads *)

(** C4, as the claim states it, fails: [Patch] with the empty payload
    submits a statement and returns what the engine answers; here the engine
    rejects the statement, so the result is not 0 rows with a nil error, and
    one statement was submitted, not none. *)
Lemma Patch_empty_submits :
  issued (Patch (sample.rejecting sample.syntaxError) builder.lib sample.users
            sample.background ∅) 0%nat
  = [CExec OnDB "update users set  where id = $1" [VNull]] /\
  value (Patch (sample.rejecting sample.syntaxError) builder.lib sample.users
           sample.background ∅) 0%nat
  = (-1, Some sample.syntaxError) /\
  ~ (value (Patch (sample.rejecting sample.syntaxError) builder.lib sample.users
              sample.background ∅) 0%nat = (0, None) /\
     issued (Patch (sample.rejecting sample.syntaxError) builder.lib sample.users
               sample.background ∅) 0%nat = []).
Proof.
  split; [reflexivity |]. split; [reflexivity |].
  intros [_ Hissued]. vm_compute in Hissued. discriminate.
Qed.

(** C4, amended: [Patch] with the empty payload is not short-circuited.  It
    submits exactly one statement, the one [BuildToPatch] makes of the empty
    column map, and returns the engine's outcome: -1 with the error when the
    statement is rejected, the driver's affected-row count otherwise. *)
Theorem Patch_empty_one_statement {St : Type} (eng : Engine St) lib r ctx (st : St) :
  let stmt := BuildToPatch lib "users" (JSONToColumns lib ∅ (JsonColumnMap (params r)))
                (Keys (params r)) (BuildParam (params r)) in
  let ans := (execContext eng (GetTx lib ctx) stmt.1 stmt.2 st).1 in
  issued (Patch eng lib r ctx ∅) st = [CExec (GetTx lib ctx) stmt.1 stmt.2] /\
  value (Patch eng lib r ctx ∅) st =
    match ans with
    | inr err => (-1, Some err)
    | inl res => RowsAffected res
    end.
Proof.
  cbn zeta. split.
  - exact (runWrite_issued eng lib r ctx (OpPatch ∅) st).
  - exact (runWrite_value eng lib r ctx (OpPatch ∅) st).
Qed.

(** C5, as the claim states it, fails: a payload whose only key maps to no
    column is not rejected.  [Patch] submits its statement and, the engine
    accepting it, returns the row count with no error at all. *)
Lemma Patch_unknown_key_accepted :
  JsonColumnMap (params sample.users) !! "unknownField" = None /\
  value (Patch (sample.accepting 1) builder.lib sample.users sample.background
           {[ "unknownField" := VInt 1 ]}) 0%nat
  = (1, None) /\
  length (issued (Patch (sample.accepting 1) builder.lib sample.users
                    sample.background {[ "unknownField" := VInt 1 ]}) 0%nat)
  = 1%nat /\
  ~ ((exists e,
        (value (Patch (sample.accepting 1) builder.lib sample.users
                  sample.background {[ "unknownField" := VInt 1 ]}) 0%nat).2
        = Some e /\ isValidationError e = true) /\
     issued (Patch (sample.accepting 1) builder.lib sample.users
               sample.background {[ "unknownField" := VInt 1 ]}) 0%nat = []).
Proof.
  split; [reflexivity |]. split; [reflexivity |]. split; [reflexivity |].
  intros [(e & Herr & _) _]. vm_compute in Herr. discriminate.
Qed.

(** C5, amended: [Patch] does not validate the keys of its payload.  For
    every payload with a key that maps to no declared column it submits
    exactly one statement, and the error it returns, if any, is the one the
    engine answered with ([ExecContext]'s, with row count -1, or
    [RowsAffected]'s); [Patch] makes no error of its own. *)
Theorem Patch_unknown_key_one_statement {St : Type} (eng : Engine St) lib r ctx
    (user : gmap string Value) (k : string) (st : St) :
  is_Some (user !! k) ->
  JsonColumnMap (params r) !! k = None ->
  let stmt := statementOf lib r (OpPatch user) in
  let ans := (execContext eng (GetTx lib ctx) stmt.1 stmt.2 st).1 in
  issued (Patch eng lib r ctx user) st = [CExec (GetTx lib ctx) stmt.1 stmt.2] /\
  (forall err, ans = inr err ->
     value (Patch eng lib r ctx user) st = (-1, Some err)) /\
  (forall res, ans = inl res ->
     value (Patch eng lib r ctx user) st = RowsAffected res).
Proof.
  intros _ _ stmt ans.
  pose proof (runWrite_value eng lib r ctx (OpPatch user) st) as Hvalue.
  cbn [runWrite] in Hvalue. unfold answer in Hvalue. fold stmt ans in Hvalue.
  split; [exact (runWrite_issued eng lib r ctx (OpPatch user) st) |].
  split; intros x Hx; rewrite Hvalue, Hx; reflexivity.
Qed.

Lemma Patch_unknown_key_one_statement_witness :
  is_Some (({[ "unknownField" := VInt 1 ]} : gmap string Value) !! "unknownField") /\
  JsonColumnMap (params sample.users) !! "unknownField" = None /\
  length (issued (Patch (sample.accepting 1) builder.lib sample.users
                    sample.background {[ "unknownField" := VInt 1 ]}) 0%nat)
  = 1%nat /\
  value (Patch (sample.accepting 1) builder.lib sample.users sample.background
           {[ "unknownField" := VInt 1 ]}) 0%nat
  = (1, None).
Proof.
  assert (Hpresent : is_Some (({[ "unknownField" := VInt 1 ]} : gmap string Value)
                                !! "unknownField")) by (eexists; reflexivity).
  assert (Hunknown : JsonColumnMap (params sample.users) !! "unknownField" = None)
    by reflexivity.
  destruct (Patch_unknown_key_one_statement (sample.accepting 1) builder.lib
              sample.users sample.background
              {[ "unknownField" := VInt 1 ]} "unknownField" 0%nat
              Hpresent Hunknown) as (Hissued & _ & Hvalue).
  split; [exact Hpresent |]. split; [exact Hunknown |].
  split; [rewrite Hissued; reflexivity |].
  exact (Hvalue _ eq_refl).
Defined.

(** ** Outcomes of the writing methods *)

(** C6: for every [Update], [Patch] or [Delete] call whose statement the
    engine executes successfully with no row matched (the result's
    [RowsAffected] is 0 with a nil error), the method returns 0 rows
    affected and a nil error. *)
Theorem write_not_found_is_zero {St : Type} (eng : Engine St) lib r ctx op
    (st : St) (res : Result) :
  isCreate op = false ->
  (answer eng lib r ctx op st).1 = inl res ->
  RowsAffected res = (0, None) ->
  value (runWrite eng lib r ctx op) st = (0, None).
Proof.
  intros _ Hanswer Hrows.
  rewrite runWrite_value, Hanswer. exact Hrows.
Qed.

Lemma write_not_found_is_zero_witness :
  isCreate (OpDelete "nobody") = false /\
  (answer (sample.accepting 0) builder.lib sample.users sample.background
     (OpDelete "nobody") 0%nat).1 = inl {| RowsAffected := (0, None) |} /\
  value (Delete (sample.accepting 0) builder.lib sample.users sample.background
           "nobody") 0%nat
  = (0, None).
Proof.
  split; [reflexivity |]. split; [reflexivity |].
  exact (write_not_found_is_zero (sample.accepting 0) builder.lib sample.users
           sample.background (OpDelete "nobody") 0%nat
           {| RowsAffected := (0, None) |} eq_refl eq_refl eq_refl).
Defined.

(** C7, as the claim states it, fails: the engine rejects the insert of a
    duplicate key, and [Create] returns the driver's error as it came, which
    is no [ConstraintError], together with the row count -1. *)
Lemma Create_duplicate_unclassified :
  value (Create (sample.rejecting sample.duplicateKey) builder.lib sample.users
           sample.background sample.ironman) 0%nat
  = (-1, Some (DriverError "23505")) /\
  ~ (exists e,
       (value (Create (sample.rejecting sample.duplicateKey) builder.lib
                 sample.users sample.background sample.ironman) 0%nat).2
       = Some e /\ isConstraintError e = true).
Proof.
  split; [reflexivity |].
  intros (e & Herr & Hkind). vm_compute in Herr.
  injection Herr as <-. discriminate Hkind.
Qed.

(** C7, amended: when the engine rejects the statement of a write, the
    method returns the engine's error value unchanged (it is a
    [ConstraintError] only if the driver's own value is one: the adapter
    classifies nothing) together with the row count -1. *)
Theorem write_rejected_returns_driver_error {St : Type} (eng : Engine St) lib r
    ctx op (st : St) (err : error) :
  (answer eng lib r ctx op st).1 = inr err ->
  value (runWrite eng lib r ctx op) st = (-1, Some err) /\
  (forall e, (value (runWrite eng lib r ctx op) st).2 = Some e ->
             isConstraintError e = isConstraintError err).
Proof.
  intros Hanswer.
  rewrite runWrite_value, Hanswer. cbn.
  split; [reflexivity |].
  intros e [= ->]. reflexivity.
Qed.

Lemma write_rejected_returns_driver_error_witness :
  (answer (sample.rejecting sample.duplicateKey) builder.lib sample.users
     sample.background (OpCreate sample.ironman) 0%nat).1
  = inr sample.duplicateKey /\
  value (Create (sample.rejecting sample.duplicateKey) builder.lib sample.users
           sample.background sample.ironman) 0%nat
  = (-1, Some sample.duplicateKey).
Proof.
  split; [reflexivity |].
  exact (proj1 (write_rejected_returns_driver_error
                  (sample.rejecting sample.duplicateKey) builder.lib sample.users
                  sample.background (OpCreate sample.ironman) 0%nat
                  sample.duplicateKey eq_refl)).
Defined.

(** C10, as the claim states it, fails: an error result does not always
    carry -1.  The engine accepts the insert, the driver's [RowsAffected]
    reports 5 rows together with an error, and [Create] returns that error
    with the count 5. *)
Lemma write_error_without_sentinel :
  (answer (sample.countless 5 sample.connectionLost) builder.lib sample.users
     sample.background (OpCreate sample.ironman) 0%nat).1
  = inl {| RowsAffected := (5, Some sample.connectionLost) |} /\
  value (Create (sample.countless 5 sample.connectionLost) builder.lib
           sample.users sample.background sample.ironman) 0%nat
  = (5, Some sample.connectionLost) /\
  ~ ((value (Create (sample.countless 5 sample.connectionLost) builder.lib
               sample.users sample.background sample.ironman) 0%nat).2 <> None ->
     (value (Create (sample.countless 5 sample.connectionLost) builder.lib
               sample.users sample.background sample.ironman) 0%nat).1 = -1).
Proof.
  split; [reflexivity |]. split; [reflexivity |].
  intros Hsentinel. vm_compute in Hsentinel.
  assert (Hcount : (5 ?= -1) = Eq).
  { apply Z.compare_eq_iff. apply Hsentinel. discriminate. }
  discriminate Hcount.
Qed.

(** C10, amended: for every [Create], [Update], [Patch] or [Delete] call
    whose [ExecContext] fails, the method returns -1 rows affected together
    with the non-nil error of the execution.  When [ExecContext] succeeds
    and [RowsAffected] itself reports an error, the method returns that
    error with the count the driver gave.  Every error result comes from one
    of these two places, so its count is -1 by the adapter's doing only when
    the execution failed. *)
Theorem write_error_results {St : Type} (eng : Engine St) lib r ctx op (st : St) :
  (forall err,
     (answer eng lib r ctx op st).1 = inr err ->
     value (runWrite eng lib r ctx op) st = (-1, Some err)) /\
  (forall res n err,
     (answer eng lib r ctx op st).1 = inl res ->
     RowsAffected res = (n, Some err) ->
     value (runWrite eng lib r ctx op) st = (n, Some err)) /\
  (forall e,
     (value (runWrite eng lib r ctx op) st).2 = Some e ->
     ((answer eng lib r ctx op st).1 = inr e /\
      (value (runWrite eng lib r ctx op) st).1 = -1) \/
     (exists res,
        (answer eng lib r ctx op st).1 = inl res /\
        RowsAffected res = ((value (runWrite eng lib r ctx op) st).1, Some e))).
Proof.
  rewrite runWrite_value.
  destruct ((answer eng lib r ctx op st).1) as [res | err0] eqn:Hanswer; cbn.
  - split; [intros err [=] |]. split.
    + intros res' n err [= <-] Hrows. exact Hrows.
    + intros e He. right. exists res. split; [reflexivity |].
      destruct (RowsAffected res) as [n o]. cbn in He. now subst o.
  - split; [intros err [= <-]; reflexivity |]. split.
    + intros res n err [=].
    + intros e [= <-]. left. split; reflexivity.
Qed.

Lemma write_error_results_witness :
  (answer (sample.rejecting sample.syntaxError) builder.lib sample.users
     sample.background (OpDelete "wolverine") 0%nat).1
  = inr sample.syntaxError /\
  value (Delete (sample.rejecting sample.syntaxError) builder.lib sample.users
           sample.background "wolverine") 0%nat
  = (-1, Some sample.syntaxError) /\
  (answer (sample.countless 5 sample.connectionLost) builder.lib sample.users
     sample.background (OpDelete "wolverine") 0%nat).1
  = inl {| RowsAffected := (5, Some sample.connectionLost) |} /\
  value (Delete (sample.countless 5 sample.connectionLost) builder.lib
           sample.users sample.background "wolverine") 0%nat
  = (5, Some sample.connectionLost).
Proof.
  split; [reflexivity |]. split.
  - exact (proj1 (write_error_results (sample.rejecting sample.syntaxError)
                    builder.lib sample.users sample.background
                    (OpDelete "wolverine") 0%nat)
             sample.syntaxError eq_refl).
  - split; [reflexivity |].
    exact (proj1 (proj2 (write_error_results
                           (sample.countless 5 sample.connectionLost)
                           builder.lib sample.users sample.background
                           (OpDelete "wolverine") 0%nat))
             {| RowsAffected := (5, Some sample.connectionLost) |}
             5 sample.connectionLost eq_refl eq_refl).
Defined.

(** ** Point lookup *)

(** C9: for every id that no row matches (the lookup query succeeds and
    yields no row), [Load] returns a nil record together with a nil error,
    having submitted the one lookup query. *)
Theorem Load_absent_is_nil {St : Type} (eng : Engine St) r ctx id (st : St) :
  (queryUsers eng (loadQuery r) [VString id] st).1 = ([], None) ->
  value (Load eng r ctx id) st = (None, None) /\
  issued (Load eng r ctx id) st = [CQuery (loadQuery r) [VString id]].
Proof.
  intros Hrows. unfold value, issued, Load. fold (loadQuery r). run_step.
  destruct (queryUsers eng (loadQuery r) [VString id] st) as [[users err] st'].
  cbn in Hrows. inversion Hrows; subst. split; reflexivity.
Qed.

Lemma Load_absent_is_nil_witness :
  (queryUsers (sample.accepting 1) (loadQuery sample.users)
     [VString "nobody"] 0%nat).1 = ([], None) /\
  value (Load (sample.accepting 1) sample.users sample.background "nobody") 0%nat
  = (None, None).
Proof.
  split; [reflexivity |].
  exact (proj1 (Load_absent_is_nil (sample.accepting 1) sample.users
                  sample.background "nobody" 0%nat eq_refl)).
Defined.

(** ** The offset the handler asks for *)

(** C8: the handler's [Search] calls the service with the decoded limit and
    the offset [limit * (max(page, 1) - 1)], for every limit and page;
    limit 20 gives offset 0 on page 1 and offset 40 on page 3. *)
Theorem handler_Search_offset {St : Type}
    (Decode : handler.Request -> UserFilter + error)
    (service_Search : Context -> UserFilter -> Z -> Z
                      -> M St (list User * Z * option error))
    (req : handler.Request) (filter : UserFilter) (st : St) :
  Decode req = inl filter ->
  let offset := Limit filter * (Z.max (Page filter) 1 - 1) in
  let call := service_Search (handler.reqContext req) filter (Limit filter) offset in
  search.GetOffset (Limit filter) (Page filter) = offset /\
  issued (handler.Search Decode service_Search req) st = issued call st /\
  after (handler.Search Decode service_Search req) st = after call st /\
  search.GetOffset 20 1 = 0 /\
  search.GetOffset 20 3 = 40.
Proof.
  intros Hdecode offset call.
  split; [reflexivity |].
  assert (Hrun : handler.Search Decode service_Search req =
                 bind call (fun res =>
                   let '(users, total, err) := res in
                   match err with
                   | Some e => ret (handler.HttpError e handler.StatusInternalServerError)
                   | None => ret (handler.JSON handler.StatusOK users total)
                   end)).
  { unfold handler.Search. rewrite Hdecode. reflexivity. }
  rewrite Hrun. unfold issued at 1, after at 1. rewrite bind_run. cbn.
  destruct (value call st) as [[users total] [e |]]; cbn;
    rewrite ?app_nil_r; repeat split; reflexivity.
Qed.

Lemma handler_Search_offset_witness :
  sample.decode sample.request = inl sample.thirdPage /\
  issued (handler.Search sample.decode
            (sample.service (sample.holding 41 [sample.ironman]))
            sample.request) 0%nat
  = [CQueryRow "select count(*) from (select * from users) as main" [];
     CQuery "select * from users limit 20 offset 40" []].
Proof.
  split; [reflexivity |].
  destruct (handler_Search_offset sample.decode
              (sample.service (sample.holding 41 [sample.ironman]))
              sample.request sample.thirdPage 0%nat eq_refl)
    as (_ & Hissued & _).
  rewrite Hissued. reflexivity.
Defined.

(** ** The WHERE clause of the mutating statements *)

Lemma placeholders_columns (buildParam : Z -> string) (columns : list string) :
  forall i, (builder.placeholders buildParam i columns).*1 = columns.
Proof.
  induction columns as [| c cs IH]; intros i; cbn; [reflexivity |].
  now rewrite IH.
Qed.

Lemma key_fields_of_record (record : list (builder.FieldDescriptor * Value)) :
  (filter (fun fv => builder.isPrimaryKey fv.1 = true) record).*1 =
  filter (fun f => builder.isPrimaryKey f = true) record.*1.
Proof.
  induction record as [| [f v] record IH]; [reflexivity |].
  rewrite fmap_cons, !filter_cons. cbn.
  destruct (decide (builder.isPrimaryKey f = true)); cbn; now rewrite IH.
Qed.

(** The update statement selects on the key columns of the record's
    metadata, in declared order, whatever their number. *)
Lemma BuildUpdate_where table buildParam record :
  builder.whereColumns (builder.BuildUpdate table buildParam record).1 =
  builder.keyColumns record.*1.
Proof.
  unfold builder.BuildUpdate, builder.keyColumns. cbn.
  now rewrite placeholders_columns, key_fields_of_record.
Qed.

(** The patch statement selects on the key columns it is given, in order. *)
Lemma BuildPatch_where table buildParam doc keys :
  builder.whereColumns (builder.BuildPatch table buildParam doc keys).1 = keys.
Proof. unfold builder.BuildPatch. cbn. apply placeholders_columns. Qed.

(** The text in [Delete] is the delete statement on the column [id]. *)
Lemma deleteStatement_text (r : UserAdapter) :
  builder.render (builder.deleteStatement r) =
  "delete from users where id = " +:+ BuildParam (params r) 1.
Proof. reflexivity. Qed.

Lemma plain_fields_of_record (record : list (builder.FieldDescriptor * Value)) :
  (filter (fun fv => builder.isPrimaryKey fv.1 = false) record).*1 =
  filter (fun f => builder.isPrimaryKey f = false) record.*1.
Proof.
  induction record as [| [f v] record IH]; [reflexivity |].
  rewrite fmap_cons, !filter_cons. cbn.
  destruct (decide (builder.isPrimaryKey f = false)); cbn; now rewrite IH.
Qed.

(** The text of an update statement, for any metadata: the SET list holds
    the columns outside the key, and the WHERE clause is [keyConditions] of
    the key columns, numbered after the SET list. *)
Lemma BuildUpdate_text table buildParam record :
  builder.render (builder.BuildUpdate table buildParam record).1 =
  "update " +:+ table +:+ " set "
  +:+ assignments buildParam 1 (plainColumns record.*1)
  +:+ " where "
  +:+ keyConditions buildParam (1 + Z.of_nat (length (plainColumns record.*1)))
        (builder.keyColumns record.*1).
Proof.
  unfold builder.BuildUpdate, plainColumns, builder.keyColumns. cbn.
  rewrite key_fields_of_record, plain_fields_of_record.
  rewrite length_fmap, <- plain_fields_of_record, length_fmap.
  reflexivity.
Qed.

(** C2: for every update, patch and delete statement the program builds,
    the text after [where] is exactly the primary-key columns of the
    metadata, each compared with its placeholder, joined by [and], in
    declared order.  For the adapter, whose metadata is that of the [users]
    record, this is the text of the one statement [Update], [Patch] and
    [Delete] submit; for single and composite keys alike it is the text the
    builders make of any metadata and any key list. *)
Theorem where_clause_is_key_conditions {St : Type} (eng : Engine St)
    (r : UserAdapter) (ctx : Context) (st : St) :
  Keys (params r) = builder.keyColumns builder.userMetadata ->
  let bp := BuildParam (params r) in
  let keys := builder.keyColumns builder.userMetadata in
  (forall user,
     callQuery <$> issued (Update eng builder.lib r ctx user) st
     = ["update users set "
        +:+ assignments bp 1 (plainColumns builder.userMetadata)
        +:+ " where "
        +:+ keyConditions bp
              (1 + Z.of_nat (length (plainColumns builder.userMetadata))) keys]) /\
  (forall user,
     let doc := JSONToColumns builder.lib user (JsonColumnMap (params r)) in
     let sets := (filter (fun cv => cv.1 ∉ keys) (map_to_list doc)).*1 in
     callQuery <$> issued (Patch eng builder.lib r ctx user) st
     = ["update users set " +:+ assignments bp 1 sets
        +:+ " where " +:+ keyConditions bp (1 + Z.of_nat (length sets)) keys]) /\
  (forall id,
     callQuery <$> issued (Delete eng builder.lib r ctx id) st
     = ["delete from users where " +:+ keyConditions bp 1 keys]) /\
  (forall table buildParam record,
     builder.render (builder.BuildUpdate table buildParam record).1
     = "update " +:+ table +:+ " set "
       +:+ assignments buildParam 1 (plainColumns record.*1)
       +:+ " where "
       +:+ keyConditions buildParam
             (1 + Z.of_nat (length (plainColumns record.*1)))
             (builder.keyColumns record.*1)) /\
  (forall table buildParam doc declared,
     let sets := (filter (fun cv => cv.1 ∉ declared) (map_to_list doc)).*1 in
     builder.render (builder.BuildPatch table buildParam doc declared).1
     = "update " +:+ table +:+ " set " +:+ assignments buildParam 1 sets
       +:+ " where "
       +:+ keyConditions buildParam (1 + Z.of_nat (length sets)) declared) /\
  (forall table buildParam (declared : list (string * Value)),
     builder.render (builder.BuildDelete table buildParam declared).1
     = "delete from " +:+ table
       +:+ " where " +:+ keyConditions buildParam 1 declared.*1).
Proof.
  intros Hkeys bp keys.
  assert (HPatch : forall table buildParam doc declared,
             builder.render (builder.BuildPatch table buildParam doc declared).1
             = "update " +:+ table +:+ " set "
               +:+ assignments buildParam 1
                     (filter (fun cv => cv.1 ∉ declared) (map_to_list doc)).*1
               +:+ " where "
               +:+ keyConditions buildParam
                     (1 + Z.of_nat (length (filter (fun cv => cv.1 ∉ declared)
                                              (map_to_list doc)).*1))
                     declared).
  { intros table buildParam doc declared.
    unfold builder.BuildPatch. cbn. now rewrite length_fmap. }
  split; [| split; [| split; [| split; [| split]]]].
  - intros user.
    rewrite (runWrite_issued eng builder.lib r ctx (OpUpdate user) st
             : issued (Update _ _ _ _ _) _ = _).
    cbn [fmap list_fmap callQuery]. apply (f_equal (fun q => [q])).
    exact (BuildUpdate_text "users" bp (builder.describe user)).
  - intros user doc sets.
    rewrite (runWrite_issued eng builder.lib r ctx (OpPatch user) st
             : issued (Patch _ _ _ _ _) _ = _).
    cbn [fmap list_fmap callQuery]. apply (f_equal (fun q => [q])).
    subst sets doc keys. rewrite <- Hkeys.
    exact (HPatch "users" bp _ (Keys (params r))).
  - intros id.
    rewrite (runWrite_issued eng builder.lib r ctx (OpDelete id) st
             : issued (Delete _ _ _ _ _) _ = _).
    reflexivity.
  - intros. apply BuildUpdate_text.
  - intros table buildParam doc declared sets. apply HPatch.
  - intros table buildParam declared. reflexivity.
Qed.

Lemma where_clause_is_key_conditions_witness :
  Keys (params sample.users) = builder.keyColumns builder.userMetadata /\
  callQuery <$> issued (Update (sample.accepting 1) builder.lib sample.users
                          sample.background sample.ironman) 0%nat
  = ["update users set username = $1, email = $2, phone = $3, date_of_birth = $4 where id = $5"] /\
  callQuery <$> issued (Delete (sample.accepting 1) builder.lib sample.users
                          sample.background "ironman") 0%nat
  = ["delete from users where id = $1"].
Proof.
  destruct (where_clause_is_key_conditions (sample.accepting 1) sample.users
              sample.background 0%nat eq_refl) as (HUpdate & _ & HDelete & _).
  split; [reflexivity |]. split.
  - rewrite (HUpdate sample.ironman). reflexivity.
  - rewrite (HDelete "ironman"). reflexivity.
Defined.

(** * Further properties of the adapter and the handler *)

(** ** Point lookup: the row found, and the failing query *)

(** X1: When the lookup query succeeds with at least one row, [Load] returns
    the first row and a nil error, after the one lookup query with the id
    as its only argument. *)
Theorem Load_found_is_first_row {St : Type} (eng : Engine St) r ctx id (st : St)
    (u : User) (rest : list User) :
  (queryUsers eng (loadQuery r) [VString id] st).1 = (u :: rest, None) ->
  value (Load eng r ctx id) st = (Some u, None) /\
  issued (Load eng r ctx id) st = [CQuery (loadQuery r) [VString id]].
Proof.
  intros Hrows. unfold value, issued, Load. fold (loadQuery r). run_step.
  destruct (queryUsers eng (loadQuery r) [VString id] st) as [[users err] st'].
  cbn in Hrows. injection Hrows as -> ->. split; reflexivity.
Qed.

Lemma Load_found_is_first_row_witness :
  (queryUsers (sample.holding 2 [sample.ironman; sample.wolverine])
     (loadQuery sample.users) [VString "ironman"] 0%nat).1
  = ([sample.ironman; sample.wolverine], None) /\
  value (Load (sample.holding 2 [sample.ironman; sample.wolverine])
           sample.users sample.background "ironman") 0%nat
  = (Some sample.ironman, None).
Proof.
  split; [reflexivity |].
  exact (proj1 (Load_found_is_first_row
                  (sample.holding 2 [sample.ironman; sample.wolverine])
                  sample.users sample.background "ironman" 0%nat
                  sample.ironman [sample.wolverine] eq_refl)).
Defined.

(** X2: When the lookup query fails, [Load] returns a nil record with the
    query's error, whatever rows were read before the failure. *)
Theorem Load_failure_drops_rows {St : Type} (eng : Engine St) r ctx id (st : St)
    (rows : list User) (err : error) :
  (queryUsers eng (loadQuery r) [VString id] st).1 = (rows, Some err) ->
  value (Load eng r ctx id) st = (None, Some err).
Proof.
  intros Hrows. unfold value, Load. fold (loadQuery r). run_step.
  destruct (queryUsers eng (loadQuery r) [VString id] st) as [[users e] st'].
  cbn in Hrows. now inversion Hrows.
Qed.

Lemma Load_failure_drops_rows_witness :
  (queryUsers (sample.engine (sample.affected 1) (sample.counted 1)
                 ([sample.ironman], Some sample.connectionLost))
     (loadQuery sample.users) [VString "ironman"] 0%nat).1
  = ([sample.ironman], Some sample.connectionLost) /\
  value (Load (sample.engine (sample.affected 1) (sample.counted 1)
                 ([sample.ironman], Some sample.connectionLost))
           sample.users sample.background "ironman") 0%nat
  = (None, Some sample.connectionLost).
Proof.
  split; [reflexivity |].
  exact (Load_failure_drops_rows
           (sample.engine (sample.affected 1) (sample.counted 1)
              ([sample.ironman], Some sample.connectionLost))
           sample.users sample.background "ironman" 0%nat
           [sample.ironman] sample.connectionLost eq_refl).
Defined.

(** ** Reading methods and writing methods *)

Lemma Search_issued_cases {St : Type} (eng : Engine St) lib r ctx filter
    limit offset (st : St) :
  let base := BuildQuery r filter in
  let count := CQueryRow (BuildCountQuery lib base.1) base.2 in
  let paged := CQuery (BuildPagingQuery lib base.1 limit offset) base.2 in
  let calls := issued (Search eng lib r ctx filter limit offset) st in
  calls = [] \/ calls = [count] \/ calls = [count; paged].
Proof.
  intros base count paged calls. subst calls.
  destruct (Z.le_gt_cases limit 0) as [Hle | Hpos].
  - left. unfold issued, Search.
    destruct (Z.leb_spec limit 0); [reflexivity | lia].
  - right. unfold issued.
    rewrite (Search_positive_run eng lib r ctx filter limit offset st Hpos).
    cbn zeta. fold base.
    destruct (Err _); [now left |].
    destruct (Scan _) as [total [e |]]; [now left |].
    destruct (total =? 0); [now left | now right].
Qed.

(** X3: The reading methods never call [ExecContext]: [All] and [Load] submit
    exactly one query each, [Search] at most two calls, and none of them is
    an execution. *)
Theorem reads_never_execute {St : Type} (eng : Engine St) lib r ctx id filter
    limit offset (st : St) :
  (length (issued (All eng r ctx) st) = 1%nat /\
   Forall (fun c => isExec c = false) (issued (All eng r ctx) st)) /\
  (length (issued (Load eng r ctx id) st) = 1%nat /\
   Forall (fun c => isExec c = false) (issued (Load eng r ctx id) st)) /\
  ((length (issued (Search eng lib r ctx filter limit offset) st) <= 2)%nat /\
   Forall (fun c => isExec c = false)
     (issued (Search eng lib r ctx filter limit offset) st)).
Proof.
  split; [| split].
  - unfold issued, All. run_step.
    destruct (queryUsers _ _ _ _) as [rows st']. cbn.
    split; [reflexivity | repeat constructor].
  - unfold issued, Load. run_step.
    destruct (queryUsers _ _ _ _) as [[rows [e |]] st']; cbn;
      [| destruct rows]; cbn; (split; [reflexivity | repeat constructor]).
  - destruct (Search_issued_cases eng lib r ctx filter limit offset st)
      as [-> | [-> | ->]]; cbn; (split; [lia | repeat constructor]).
Qed.

(** X4: Every writing method submits exactly one statement, an execution on
    the handle [GetTx] finds, whether the engine accepts or rejects it: no
    retry, no query before or after, and the engine is left in the state
    that one execution produced. *)
Theorem write_submits_one_statement {St : Type} (eng : Engine St) lib r ctx op
    (st : St) :
  issued (runWrite eng lib r ctx op) st
  = [CExec (GetTx lib ctx) (statementOf lib r op).1 (statementOf lib r op).2] /\
  Forall (fun c => isQuery c = false /\ isQueryRow c = false)
    (issued (runWrite eng lib r ctx op) st) /\
  after (runWrite eng lib r ctx op) st = (answer eng lib r ctx op st).2.
Proof.
  unfold issued, after. rewrite runWrite_run. cbn.
  split; [reflexivity |]. split; [| reflexivity].
  constructor; [split; reflexivity | constructor].
Qed.

(** X5: When the engine accepts the statement and [RowsAffected] itself
    reports an error, the writing method returns that error with the count
    the driver gave beside it: the count of an error result is -1 only when
    the execution failed. *)
Theorem write_rows_affected_error {St : Type} (eng : Engine St) lib r ctx op
    (st : St) (res : Result) (n : Z) (err : error) :
  (answer eng lib r ctx op st).1 = inl res ->
  RowsAffected res = (n, Some err) ->
  value (runWrite eng lib r ctx op) st = (n, Some err).
Proof.
  intros Hanswer Hrows.
  now rewrite (runWrite_accepted eng lib r ctx op st res Hanswer).
Qed.

Lemma write_rows_affected_error_witness :
  (answer (sample.countless 0 sample.connectionLost) builder.lib sample.users
     sample.background (OpUpdate sample.ironman) 0%nat).1
  = inl {| RowsAffected := (0, Some sample.connectionLost) |} /\
  value (Update (sample.countless 0 sample.connectionLost) builder.lib
           sample.users sample.background sample.ironman) 0%nat
  = (0, Some sample.connectionLost).
Proof.
  split; [reflexivity |].
  exact (write_rows_affected_error (sample.countless 0 sample.connectionLost)
           builder.lib sample.users sample.background (OpUpdate sample.ironman)
           0%nat {| RowsAffected := (0, Some sample.connectionLost) |}
           0 sample.connectionLost eq_refl eq_refl).
Defined.

(** X6: [Load] and [Delete] bind the id as the statement's only argument and
    never put it into the statement text: the text they submit is the same
    for every id, whatever the context, the engine and its state. *)
Theorem id_is_bound_not_spliced {St St' : Type} (eng : Engine St)
    (eng' : Engine St') lib r ctx ctx' (st : St) (st' : St') (id id' : string) :
  (callQuery <$> issued (Load eng r ctx id) st
   = callQuery <$> issued (Load eng' r ctx' id') st' /\
   callArgs <$> issued (Load eng r ctx id) st = [[VString id]]) /\
  (callQuery <$> issued (Delete eng lib r ctx id) st
   = callQuery <$> issued (Delete eng' lib r ctx' id') st' /\
   callArgs <$> issued (Delete eng lib r ctx id) st = [[VString id]]).
Proof.
  assert (HLoad : forall T (e : Engine T) c i (s : T),
             issued (Load e r c i) s = [CQuery (loadQuery r) [VString i]]).
  { intros T e c i s. unfold issued, Load. fold (loadQuery r). run_step.
    destruct (queryUsers _ _ _ _) as [[rows [err |]] s1]; cbn;
      [| destruct rows]; reflexivity. }
  split.
  - rewrite !HLoad. split; reflexivity.
  - rewrite (runWrite_issued eng lib r ctx (OpDelete id) st : issued (Delete _ _ _ _ _) _ = _).
    rewrite (runWrite_issued eng' lib r ctx' (OpDelete id') st' : issued (Delete _ _ _ _ _) _ = _).
    split; reflexivity.
Qed.

(** ** Search: failures of the count query *)

(** X7: With a positive limit, when the count query itself fails, [Search]
    returns the empty sequence, total 0 and that error, and the paged query
    is not submitted. *)
Theorem Search_count_query_fails {St : Type} (eng : Engine St) lib r ctx filter
    limit offset (st : St) (err : error) :
  0 < limit ->
  Err (queryRowContext eng (BuildCountQuery lib (BuildQuery r filter).1)
         (BuildQuery r filter).2 st).1 = Some err ->
  value (Search eng lib r ctx filter limit offset) st = ([], 0, Some err) /\
  issued (Search eng lib r ctx filter limit offset) st
  = [CQueryRow (BuildCountQuery lib (BuildQuery r filter).1) (BuildQuery r filter).2].
Proof.
  intros Hlimit Herr. unfold value, issued.
  rewrite (Search_positive_run eng lib r ctx filter limit offset st Hlimit).
  cbn zeta. rewrite Herr. split; reflexivity.
Qed.

Lemma Search_count_query_fails_witness :
  0 < 20 /\
  Err (queryRowContext (sample.failingCount sample.connectionLost)
         (BuildCountQuery builder.lib (BuildQuery sample.users sample.firstPage).1)
         (BuildQuery sample.users sample.firstPage).2 0%nat).1
  = Some sample.connectionLost /\
  value (Search (sample.failingCount sample.connectionLost) builder.lib
           sample.users sample.background sample.firstPage 20 0) 0%nat
  = ([], 0, Some sample.connectionLost).
Proof.
  split; [lia |]. split; [reflexivity |].
  refine (proj1 (Search_count_query_fails
                   (sample.failingCount sample.connectionLost) builder.lib
                   sample.users sample.background sample.firstPage 20 0 0%nat
                   sample.connectionLost _ eq_refl)).
  lia.
Defined.

(** X8: With a positive limit, when the row of the count query cannot be
    scanned, [Search] returns the empty sequence with the scan's error and
    whatever the scan left in the total, and the paged query is not
    submitted. *)
Theorem Search_count_scan_fails {St : Type} (eng : Engine St) lib r ctx filter
    limit offset (st : St) (total : Z) (err : error) :
  0 < limit ->
  Err (queryRowContext eng (BuildCountQuery lib (BuildQuery r filter).1)
         (BuildQuery r filter).2 st).1 = None ->
  Scan (queryRowContext eng (BuildCountQuery lib (BuildQuery r filter).1)
          (BuildQuery r filter).2 st).1 = (total, Some err) ->
  value (Search eng lib r ctx filter limit offset) st = ([], total, Some err) /\
  issued (Search eng lib r ctx filter limit offset) st
  = [CQueryRow (BuildCountQuery lib (BuildQuery r filter).1) (BuildQuery r filter).2].
Proof.
  intros Hlimit Herr Hscan. unfold value, issued.
  rewrite (Search_positive_run eng lib r ctx filter limit offset st Hlimit).
  cbn zeta. rewrite Herr, Hscan. split; reflexivity.
Qed.

Lemma Search_count_scan_fails_witness :
  0 < 20 /\
  value (Search (sample.unreadableCount sample.connectionLost) builder.lib
           sample.users sample.background sample.firstPage 20 0) 0%nat
  = ([], 0, Some sample.connectionLost).
Proof.
  split; [lia |].
  refine (proj1 (Search_count_scan_fails
                   (sample.unreadableCount sample.connectionLost) builder.lib
                   sample.users sample.background sample.firstPage 20 0 0%nat
                   0 sample.connectionLost _ eq_refl eq_refl)).
  lia.
Defined.

(** ** Search: the page and the total *)

(** X9: With a positive limit and a count that scans to a total other than 0
    (a negative one included), [Search] submits the count query and then
    the paged query, with the same arguments, the paged query on the engine
    state the count left.  It returns the rows and the error of the paged
    query beside the total of the count, so a failing page still carries
    the total. *)
Theorem Search_runs_page_after_count {St : Type} (eng : Engine St) lib r ctx
    filter limit offset (st : St) (total : Z) :
  0 < limit ->
  total <> 0 ->
  let base := BuildQuery r filter in
  let counted := queryRowContext eng (BuildCountQuery lib base.1) base.2 st in
  let paged := queryUsers eng (BuildPagingQuery lib base.1 limit offset) base.2
                 counted.2 in
  Err counted.1 = None ->
  Scan counted.1 = (total, None) ->
  Search eng lib r ctx filter limit offset st =
  ((paged.1.1, total, paged.1.2),
   [CQueryRow (BuildCountQuery lib base.1) base.2;
    CQuery (BuildPagingQuery lib base.1 limit offset) base.2],
   paged.2).
Proof.
  intros Hlimit Htotal base counted paged Herr Hscan.
  rewrite (Search_positive_run eng lib r ctx filter limit offset st Hlimit).
  cbn zeta. fold base. fold counted. rewrite Herr, Hscan.
  destruct (Z.eqb_spec total 0) as [-> | _]; [contradiction | reflexivity].
Qed.

Lemma Search_runs_page_after_count_witness :
  0 < 20 /\ 41 <> 0 /\
  Search (sample.failingPage 41 sample.connectionLost) builder.lib sample.users
    sample.background sample.thirdPage 20 40 0%nat
  = (([], 41, Some sample.connectionLost),
     [CQueryRow "select count(*) from (select * from users) as main" [];
      CQuery "select * from users limit 20 offset 40" []],
     2%nat).
Proof.
  split; [lia |]. split; [lia |].
  refine (Search_runs_page_after_count
            (sample.failingPage 41 sample.connectionLost) builder.lib sample.users
            sample.background sample.thirdPage 20 40 0%nat 41 _ _ eq_refl eq_refl);
    lia.
Defined.

(** X10: The total a search reports does not depend on the page asked for: from
    the same engine state, any two positive limits and any two offsets give
    the same first call and the same total. *)
Theorem Search_total_ignores_paging {St : Type} (eng : Engine St) lib r ctx
    filter (limit offset limit' offset' : Z) (st : St) :
  0 < limit ->
  0 < limit' ->
  (value (Search eng lib r ctx filter limit offset) st).1.2
  = (value (Search eng lib r ctx filter limit' offset') st).1.2 /\
  head (issued (Search eng lib r ctx filter limit offset) st)
  = head (issued (Search eng lib r ctx filter limit' offset') st).
Proof.
  intros Hlimit Hlimit'. unfold value, issued.
  rewrite (Search_positive_run eng lib r ctx filter limit offset st Hlimit).
  rewrite (Search_positive_run eng lib r ctx filter limit' offset' st Hlimit').
  cbn zeta.
  destruct (Err _); [split; reflexivity |].
  destruct (Scan _) as [total [e |]]; [split; reflexivity |].
  destruct (total =? 0); split; reflexivity.
Qed.

Lemma Search_total_ignores_paging_witness :
  0 < 20 /\ 0 < 5 /\
  (value (Search (sample.holding 41 [sample.ironman]) builder.lib sample.users
            sample.background sample.thirdPage 20 40) 0%nat).1.2
  = (value (Search (sample.holding 41 [sample.ironman]) builder.lib sample.users
              sample.background sample.thirdPage 5 0) 0%nat).1.2.
Proof.
  split; [lia |]. split; [lia |].
  refine (proj1 (Search_total_ignores_paging
                   (sample.holding 41 [sample.ironman]) builder.lib sample.users
                   sample.background sample.thirdPage 20 40 5 0 0%nat _ _)); lia.
Defined.

(** ** The handler *)

(** X11: A search request that cannot be decoded is answered with status 400
    and the decoder's error; the service is not called, so no statement is
    submitted and the engine is left as it was. *)
Theorem handler_Search_bad_request {St : Type}
    (Decode : handler.Request -> UserFilter + error)
    (service_Search : Context -> UserFilter -> Z -> Z
                      -> M St (list User * Z * option error))
    (req : handler.Request) (err : error) (st : St) :
  Decode req = inr err ->
  handler.Search Decode service_Search req st
  = (handler.HttpError err handler.StatusBadRequest, [], st).
Proof.
  intros Hdecode. unfold handler.Search. now rewrite Hdecode.
Qed.

Lemma handler_Search_bad_request_witness :
  sample.undecodable sample.request = inr (ValidationError "page") /\
  handler.Search sample.undecodable
    (sample.service (sample.holding 41 [sample.ironman])) sample.request 0%nat
  = (handler.HttpError (ValidationError "page") 400, [], 0%nat).
Proof.
  split; [reflexivity |].
  exact (handler_Search_bad_request sample.undecodable
           (sample.service (sample.holding 41 [sample.ironman])) sample.request
           (ValidationError "page") 0%nat eq_refl).
Defined.

(** X12: For a request that decodes, the handler answers 200 exactly when the
    service returns no error, with the service's list and total unchanged;
    any service error is answered with status 500 and that error, and the
    list and total returned beside it are not written. *)
Theorem handler_Search_forwards {St : Type}
    (Decode : handler.Request -> UserFilter + error)
    (service_Search : Context -> UserFilter -> Z -> Z
                      -> M St (list User * Z * option error))
    (req : handler.Request) (filter : UserFilter) (st : St) :
  Decode req = inl filter ->
  let found := value (service_Search (handler.reqContext req) filter (Limit filter)
                        (search.GetOffset (Limit filter) (Page filter))) st in
  (forall users total,
     found = (users, total, None) ->
     value (handler.Search Decode service_Search req) st
     = handler.JSON handler.StatusOK users total) /\
  (forall users total err,
     found = (users, total, Some err) ->
     value (handler.Search Decode service_Search req) st
     = handler.HttpError err handler.StatusInternalServerError).
Proof.
  intros Hdecode found.
  assert (Hvalue : value (handler.Search Decode service_Search req) st =
                   let '(users, total, err) := found in
                   match err with
                   | Some e => handler.HttpError e handler.StatusInternalServerError
                   | None => handler.JSON handler.StatusOK users total
                   end).
  { subst found. unfold value, handler.Search. rewrite Hdecode. unfold bind.
    destruct (service_Search _ _ _ _ st) as [[[[users total] [e |]] calls] st'];
      reflexivity. }
  split.
  - intros users total Hfound. rewrite Hvalue. subst found. now rewrite Hfound.
  - intros users total err Hfound. rewrite Hvalue. subst found. now rewrite Hfound.
Qed.

Lemma handler_Search_forwards_witness :
  sample.decode sample.request = inl sample.thirdPage /\
  value (handler.Search sample.decode
           (sample.service (sample.holding 41 [sample.ironman]))
           sample.request) 0%nat
  = handler.JSON 200 [sample.ironman] 41 /\
  value (handler.Search sample.decode
           (sample.service (sample.failingPage 41 sample.connectionLost))
           sample.request) 0%nat
  = handler.HttpError sample.connectionLost 500.
Proof.
  split; [reflexivity |]. split.
  - exact (proj1 (handler_Search_forwards sample.decode
                    (sample.service (sample.holding 41 [sample.ironman]))
                    sample.request sample.thirdPage 0%nat eq_refl)
             [sample.ironman] 41 eq_refl).
  - exact (proj2 (handler_Search_forwards sample.decode
                    (sample.service (sample.failingPage 41 sample.connectionLost))
                    sample.request sample.thirdPage 0%nat eq_refl)
             [] 41 sample.connectionLost eq_refl).
Defined.

(** X13: The handler over the adapter: a search request whose decoded limit is
    zero or negative is answered with status 200, an empty list and total
    0, and reaches the engine with no statement at all, whatever its page
    and criteria. *)
Theorem handler_Search_without_limit {St : Type} (eng : Engine St) lib r
    (Decode : handler.Request -> UserFilter + error)
    (req : handler.Request) (filter : UserFilter) (st : St) :
  Decode req = inl filter ->
  Limit filter <= 0 ->
  handler.Search Decode (Search eng lib r) req st
  = (handler.JSON handler.StatusOK [] 0, [], st).
Proof.
  intros Hdecode Hlimit. unfold handler.Search. rewrite Hdecode.
  unfold bind, Search.
  destruct (Z.leb_spec (Limit filter) 0) as [_ | Hpos]; [reflexivity | lia].
Qed.

Lemma handler_Search_without_limit_witness :
  (fun _ : handler.Request => inl sample.noPage) sample.request
  = (inl sample.noPage : UserFilter + error) /\
  Limit sample.noPage <= 0 /\
  handler.Search (fun _ => inl sample.noPage)
    (Search (sample.holding 41 [sample.ironman]) builder.lib sample.users)
    sample.request 0%nat
  = (handler.JSON 200 [] 0, [], 0%nat).
Proof.
  split; [reflexivity |]. split; [cbn; lia |].
  refine (handler_Search_without_limit (sample.holding 41 [sample.ironman])
            builder.lib sample.users (fun _ => inl sample.noPage)
            sample.request sample.noPage 0%nat eq_refl _).
  cbn; lia.
Defined.

(** X14: The handler's [All] submits what the service submits and nothing more.
    It answers 200 with the service's users and logs nothing when the
    service returns no error; otherwise it answers 500 with the error's
    text, logs the one line ["Error: " ++ text], and writes none of the
    users returned beside the error.  Over the adapter's [All] the one
    statement is [select * from users], without arguments. *)
Theorem handler_All_answers {St : Type} (eng : Engine St) (r : UserAdapter)
    (errorText : error -> string)
    (service_All : Context -> M St (list User * option error))
    (req : handler.Request) (st : St) :
  let found := value (service_All (handler.reqContext req)) st in
  issued (handler.All errorText service_All req) st
  = issued (service_All (handler.reqContext req)) st /\
  value (handler.All errorText service_All req) st
  = match found.2 with
    | Some e => (handler.ListError (errorText e) handler.StatusInternalServerError,
                 ["Error: " +:+ errorText e])
    | None => (handler.ListJSON handler.StatusOK found.1, [])
    end /\
  issued (handler.All errorText (All eng r) req) st
  = [CQuery "select * from users" []].
Proof.
  cbn zeta.
  assert (Hgen : forall svc : Context -> M St (list User * option error),
             issued (handler.All errorText svc req) st
             = issued (svc (handler.reqContext req)) st /\
             value (handler.All errorText svc req) st
             = match (value (svc (handler.reqContext req)) st).2 with
               | Some e => (handler.ListError (errorText e)
                              handler.StatusInternalServerError,
                            ["Error: " +:+ errorText e])
               | None => (handler.ListJSON handler.StatusOK
                            (value (svc (handler.reqContext req)) st).1, [])
               end).
  { intros svc. unfold issued, value, handler.All, bind.
    destruct (svc (handler.reqContext req) st) as [[[users [e |]] calls] st'];
      cbn; rewrite app_nil_r; split; reflexivity. }
  destruct (Hgen service_All) as [Hissued Hvalue].
  split; [exact Hissued |]. split; [exact Hvalue |].
  rewrite (proj1 (Hgen (All eng r))).
  unfold issued, All. run_step.
  destruct (queryUsers _ _ _ _) as [rows st']. reflexivity.
Qed.
